(** * fiber-bearer-token: the bearer-token middleware of [bearertoken.go]

    A shallow embedding of [New] (configuration resolution and the request
    handler it returns) together with the part of the Fiber context the
    handler touches, followed by the properties of the extraction and of
    the conflict rule. *)

From Stdlib Require Import ZArith Ascii String List Bool Lia Permutation.
From stdpp Require Import base option strings gmap.

Local Open Scope string_scope.
Local Open Scope Z_scope.

(** ** Go strings *)

Module GoString.

(** [len(s)]: Go strings are byte sequences, as [string] is here. *)
Definition len (s : string) : Z := Z.of_nat (String.length s).

(** [strings.Index] and the two slices [s[:m]], [s[m+len(sep):]] that
    [genSplit] takes around the first occurrence of [sep]; [None] when
    [sep] does not occur.  Only called with a non-empty [sep]. *)
Fixpoint cut (sep s : string) : option (string * string) :=
  if String.prefix sep s
  then Some (EmptyString, String.substring (String.length sep)
                            (String.length s - String.length sep) s)
  else match s with
       | EmptyString => None
       | String c s' =>
           match cut sep s' with
           | Some (a, b) => Some (String c a, b)
           | None => None
           end
       end.

(** The loop of [genSplit]: at most [k] pieces, the last one the
    unsplit remainder. *)
Fixpoint pieces (sep : string) (k : nat) (s : string) : list string :=
  match k with
  | O => []
  | S O => [s]
  | S k' =>
      match cut sep s with
      | None => [s]
      | Some (a, b) => a :: pieces sep k' b
      end
  end.

(** [strings.SplitN(s, sep, n)] for a non-empty separator: [n = 0]
    gives no pieces, [n < 0] all of them, [n > 0] at most [n]. *)
Definition SplitN (s sep : string) (n : Z) : list string :=
  if n =? 0 then []
  else if n <? 0 then pieces sep (S (String.length s)) s
  else pieces sep (Z.to_nat n) s.

(** [strings.Contains(s, substr)]: [Index(s, substr) >= 0]. *)
Definition Contains (s substr : string) : bool :=
  match cut substr s with
  | Some _ => true
  | None => false
  end.

(** ASCII lower-casing, used for header names. *)
Definition lower_ascii (c : ascii) : ascii :=
  let n := nat_of_ascii c in
  if (Nat.leb 65 n && Nat.leb n 90)%bool then ascii_of_nat (n + 32) else c.

Fixpoint to_lower (s : string) : string :=
  match s with
  | EmptyString => EmptyString
  | String c s' => String (lower_ascii c) (to_lower s')
  end.

End GoString.

Import GoString.

(** ** The Fiber context, as far as the middleware uses it *)

Module Fiber.

(** The parsed request: query arguments, form-body arguments and
    headers (names stored lower-cased, so that lookup ignores case). *)
Record Request := mkRequest {
  queryArgs : gmap string string;
  postArgs : gmap string string;
  reqHeader : gmap string string
}.

(** [*fiber.Ctx]: the request, the request-scoped values set with
    [Locals], and the response being built. *)
Record Ctx := mkCtx {
  request : Request;
  locals : gmap string string;
  statusCode : Z;
  respBody : string
}.

(** A handler receives the rest of the chain, which [ctx.Next()] runs. *)
Definition Handler := (Ctx -> Ctx) -> Ctx -> Ctx.

(** [ctx.Query(key)]: the empty string when the parameter is absent. *)
Definition Query (ctx : Ctx) (key : string) : string :=
  default EmptyString (queryArgs (request ctx) !! key).

(** [ctx.Body(key)]: the form field, empty when absent. *)
Definition Body (ctx : Ctx) (key : string) : string :=
  default EmptyString (postArgs (request ctx) !! key).

(** [ctx.Get(key)]: the header value, empty when absent. *)
Definition Get (ctx : Ctx) (key : string) : string :=
  default EmptyString (reqHeader (request ctx) !! to_lower key).

(** [ctx.Status(code)]. *)
Definition Status (ctx : Ctx) (code : Z) : Ctx :=
  {| request := request ctx; locals := locals ctx;
     statusCode := code; respBody := respBody ctx |}.

(** [ctx.Send(bodies...)]: with no argument nothing is written. *)
Definition Send (ctx : Ctx) (bodies : list string) : Ctx :=
  match bodies with
  | [] => ctx
  | _ => {| request := request ctx; locals := locals ctx;
            statusCode := statusCode ctx;
            respBody := String.concat EmptyString bodies |}
  end.

(** [ctx.Locals(key, value)]. *)
Definition Locals (ctx : Ctx) (key value : string) : Ctx :=
  {| request := request ctx; locals := <[key := value]> (locals ctx);
     statusCode := statusCode ctx; respBody := respBody ctx |}.

(** [ctx.Locals(key)]: reading a request-scoped value. *)
Definition LocalsGet (ctx : Ctx) (key : string) : option string :=
  locals ctx !! key.

(** The context the application hands to the first handler: status 200,
    nothing written, no request-scoped value. *)
Definition AcquireCtx (r : Request) : Ctx :=
  {| request := r; locals := ∅; statusCode := 200;
     respBody := EmptyString |}.

(** Running a chain of handlers; past the last one nothing happens. *)
Fixpoint run (stack : list Handler) (ctx : Ctx) : Ctx :=
  match stack with
  | [] => ctx
  | h :: rest => h (run rest) ctx
  end.

(** [app.Test(req)]. *)
Definition Test (stack : list Handler) (r : Request) : Ctx :=
  run stack (AcquireCtx r).

End Fiber.

Import Fiber.

(** ** bearertoken.go *)

(** [type Config struct]. *)
Record Config := mkConfig {
  BodyKey : string;
  HeaderKey : string;
  QueryKey : string;
  RequestKey : string
}.

(** Lines 85-108 of [New]: the defaults, each overridden by a non-empty
    field of [opts] ([None] is the nil pointer). *)
Definition resolveConfig (opts : option Config) : Config :=
  let config := {| BodyKey := "access_token"; HeaderKey := "Bearer";
                   QueryKey := "access_token"; RequestKey := "token" |} in
  match opts with
  | None => config
  | Some opts =>
      let config :=
        if 0 <? len (BodyKey opts)
        then {| BodyKey := BodyKey opts; HeaderKey := HeaderKey config;
                QueryKey := QueryKey config; RequestKey := RequestKey config |}
        else config in
      let config :=
        if 0 <? len (HeaderKey opts)
        then {| BodyKey := BodyKey config; HeaderKey := HeaderKey opts;
                QueryKey := QueryKey config; RequestKey := RequestKey config |}
        else config in
      let config :=
        if 0 <? len (QueryKey opts)
        then {| BodyKey := BodyKey config; HeaderKey := HeaderKey config;
                QueryKey := QueryKey opts; RequestKey := RequestKey config |}
        else config in
      let config :=
        if 0 <? len (RequestKey opts)
        then {| BodyKey := BodyKey config; HeaderKey := HeaderKey config;
                QueryKey := QueryKey config; RequestKey := RequestKey opts |}
        else config in
      config
  end.

(** Lines 111-145 of the handler: the two local variables [token] and
    [errored] after the query parameter, the body parameter and the
    authorization header have been looked at, in this order. *)
Definition extract (config : Config) (ctx : Ctx) : string * bool :=
  let token := EmptyString in
  let errored := false in
  (* query parameter *)
  let queryValue := Query ctx (QueryKey config) in
  let token := if 0 <? len queryValue then queryValue else token in
  (* body parameter *)
  let bodyValue := Body ctx (BodyKey config) in
  let '(token, errored) :=
    if 0 <? len bodyValue
    then (bodyValue, if 0 <? len token then true else errored)
    else (token, errored) in
  (* request authorization header *)
  let headerValue := Get ctx "authorization" in
  let '(token, errored) :=
    if 0 <? len headerValue
    then
      let components := SplitN headerValue " " 2 in
      if ((Z.of_nat (List.length components) =? 2)
          && String.eqb (nth 0 components EmptyString) (HeaderKey config))%bool
      then (nth 1 components EmptyString,
            if 0 <? len token then true else errored)
      else (token, errored)
    else (token, errored) in
  (token, errored).

(** Lines 110-153: the handler itself. *)
Definition middleware (config : Config) : Handler :=
  fun next ctx =>
    let '(token, errored) := extract config ctx in
    if errored
    then Send (Status ctx 400) []
    else next (Locals ctx (RequestKey config) token).

(** [New]: resolve the configuration, return the handler. *)
Definition New (opts : option Config) : Handler :=
  let config := resolveConfig opts in
  middleware config.

(** ** The three sources, one at a time *)

(** The places a token is looked for. *)
Inductive Source := FromQuery | FromBody | FromHeader.

(** What the authorization header hands to the handler: the second
    component, when the split gives two and the first is [HeaderKey]
    (lines 133-138). *)
Definition headerToken (config : Config) (ctx : Ctx) : option string :=
  let headerValue := Get ctx "authorization" in
  if 0 <? len headerValue
  then
    let components := SplitN headerValue " " 2 in
    if ((Z.of_nat (List.length components) =? 2)
        && String.eqb (nth 0 components EmptyString) (HeaderKey config))%bool
    then Some (nth 1 components EmptyString)
    else None
  else None.

(** The guard of each of the three blocks: the value the block assigns to
    [token], or [None] when the block is skipped. *)
Definition supplied (config : Config) (ctx : Ctx) (src : Source)
  : option string :=
  match src with
  | FromQuery =>
      let queryValue := Query ctx (QueryKey config) in
      if 0 <? len queryValue then Some queryValue else None
  | FromBody =>
      let bodyValue := Body ctx (BodyKey config) in
      if 0 <? len bodyValue then Some bodyValue else None
  | FromHeader => headerToken config ctx
  end.

(** The body shared by the blocks: flag a conflict when [token] is already
    set, then overwrite it. *)
Definition check (st : string * bool) (v : option string) : string * bool :=
  let '(token, errored) := st in
  match v with
  | Some value => (value, if 0 <? len token then true else errored)
  | None => (token, errored)
  end.

(** The same checks run over the sources in a given order. *)
Definition extractIn (order : list Source) (config : Config) (ctx : Ctx)
  : string * bool :=
  fold_left (fun st src => check st (supplied config ctx src))
            order (EmptyString, false).

(** ** Vocabulary of the properties *)

(** Source [src] supplies the value [v]: the query parameter or the body
    field has that value; for the header, the authorization value splits
    into exactly the scheme [HeaderKey] and the credential [v]. *)
Definition supplies (config : Config) (ctx : Ctx) (src : Source)
    (v : string) : Prop :=
  match src with
  | FromQuery => Query ctx (QueryKey config) = v
  | FromBody => Body ctx (BodyKey config) = v
  | FromHeader =>
      SplitN (Get ctx "authorization") " " 2 = [HeaderKey config; v]
  end.

(** Source [src] supplies nothing: no (or an empty) query parameter or
    body field; no authorization header with the scheme [HeaderKey]. *)
Definition silent (config : Config) (ctx : Ctx) (src : Source) : Prop :=
  match src with
  | FromQuery => Query ctx (QueryKey config) = EmptyString
  | FromBody => Body ctx (BodyKey config) = EmptyString
  | FromHeader =>
      forall v, SplitN (Get ctx "authorization") " " 2 <> [HeaderKey config; v]
  end.

(** The outcome the specification calls Conflict. *)
Definition conflict (config : Config) (ctx : Ctx) : bool :=
  snd (extract config ctx).

(** How many of the given lookups handed over a value. *)
Fixpoint suppliedCount (vals : list (option string)) : nat :=
  match vals with
  | [] => O
  | Some _ :: rest => S (suppliedCount rest)
  | None :: rest => suppliedCount rest
  end.

(** The same context with the authorization header taken away. *)
Definition withoutAuthorization (ctx : Ctx) : Ctx :=
  {| request :=
       {| queryArgs := queryArgs (request ctx);
          postArgs := postArgs (request ctx);
          reqHeader := delete "authorization" (reqHeader (request ctx)) |};
     locals := locals ctx; statusCode := statusCode ctx;
     respBody := respBody ctx |}.

(** ** Requests of the test suite *)

Module TestSuite.

Definition emptyRequest : Request :=
  {| queryArgs := ∅; postArgs := ∅; reqHeader := ∅ |}.

Definition withQuery (key value : string) (r : Request) : Request :=
  {| queryArgs := <[key := value]> (queryArgs r);
     postArgs := postArgs r; reqHeader := reqHeader r |}.

Definition withForm (key value : string) (r : Request) : Request :=
  {| queryArgs := queryArgs r;
     postArgs := <[key := value]> (postArgs r); reqHeader := reqHeader r |}.

Definition withHeader (name value : string) (r : Request) : Request :=
  {| queryArgs := queryArgs r; postArgs := postArgs r;
     reqHeader := <[to_lower name := value]> (reqHeader r) |}.

(** The route handler of the tests: send the request-scoped value. *)
Definition echo (requestKey : string) : Handler :=
  fun _ ctx => Send ctx [default EmptyString (LocalsGet ctx requestKey)].

Definition app (config : Config) (requestKey : string) : list Handler :=
  [New (Some config); echo requestKey].

Definition defaultSettings : Config :=
  {| BodyKey := ""; HeaderKey := ""; QueryKey := ""; RequestKey := "" |}.

Definition customSettings : Config :=
  {| BodyKey := "custom_token"; HeaderKey := "custom_token";
     QueryKey := "custom_token"; RequestKey := "bearer" |}.

(** The five requests of [TestMiddleware], for a given key. *)
Definition firstRequest : Request := emptyRequest.

Definition secondRequest (key : string) : Request :=
  withHeader "Authorization" (key +:+ " nanachi-cute") emptyRequest.

Definition thirdRequest (key : string) : Request :=
  withQuery key "nanachi-cute" emptyRequest.

Definition fourthRequest (key : string) : Request :=
  withHeader "Content-Type" "application/x-www-form-urlencoded"
    (withForm key "nanachi-cute" emptyRequest).

Definition fifthRequest (queryKey headerKey : string) : Request :=
  withHeader "Authorization" (headerKey +:+ " nanachi-cute")
    (withQuery queryKey "nanachi-cute" emptyRequest).

(** Further requests: a scheme with nothing after its space, next to a
    query token; another scheme; a scheme that itself holds a space. *)
Definition bareSchemeRequest : Request :=
  withHeader "Authorization" "Bearer "
    (withQuery "access_token" "abc" emptyRequest).

Definition basicRequest : Request :=
  withHeader "Authorization" "Basic xyz"
    (withQuery "access_token" "abc" emptyRequest).

Definition spacedSettings : Config :=
  {| BodyKey := ""; HeaderKey := "Token v2"; QueryKey := "";
     RequestKey := "" |}.

Definition spacedSchemeRequest : Request :=
  withHeader "Authorization" "Token v2 "
    (withQuery "access_token" "abc" emptyRequest).

(** A context in which an earlier handler already left a value. *)
Definition visitedCtx (r : Request) : Ctx :=
  Locals (AcquireCtx r) "user" "nanachi".

End TestSuite.

Import TestSuite.

(** ** Further vocabulary *)

(** Lines 114-117 of [TestMiddleware]: the name under which the route
    handlers of the test read the token. *)
Definition testRequestKey (config : Config) : string :=
  let requestKey := "token" in
  if 0 <? len (RequestKey config) then RequestKey config else requestKey.



(** The token the three blocks leave, by precedence: the credential of a
    matching header, else a non-empty body field, else the query
    parameter. *)
Definition lastSupplied (config : Config) (ctx : Ctx) : string :=
  match supplied config ctx FromHeader with
  | Some credential => credential
  | None =>
      if 0 <? len (Body ctx (BodyKey config))
      then Body ctx (BodyKey config)
      else Query ctx (QueryKey config)
  end.

(** ** Strings: length and splitting at the first space *)

Section StringFacts.

Lemma len_pos (s : string) : (0 <? len s) = true <-> s <> EmptyString.
Proof.
  unfold len. destruct s as [|c s]; simpl.
  - split; [discriminate | congruence].
  - split; [discriminate | intros _; apply Z.ltb_lt; lia].
Qed.

Lemma len_zero (s : string) : (0 <? len s) = false <-> s = EmptyString.
Proof.
  unfold len. destruct s as [|c s]; simpl.
  - split; reflexivity.
  - split; [|discriminate].
    intros H. apply Z.ltb_ge in H. lia.
Qed.

Lemma substring_all (s : string) :
  String.substring 0 (String.length s) s = s.
Proof. induction s as [|c s IH]; simpl; [reflexivity | now rewrite IH]. Qed.

(** One step of [cut] at a space: either the string starts with it, or
    the first byte goes to the scheme side. *)
Lemma cut_space_cons (c : ascii) (s : string) :
  cut " " (String c s) =
    if Ascii.eqb c " " then Some (EmptyString, s)
    else match cut " " s with
         | Some (a, b) => Some (String c a, b)
         | None => None
         end.
Proof.
  cbn [cut String.prefix].
  destruct (Ascii.eqb_spec c " ") as [->|Hne].
  - destruct (ascii_dec " " " ") as [_|E]; [|congruence].
    destruct s; cbn [String.prefix String.length String.substring Nat.sub];
      [reflexivity|].
    now rewrite substring_all.
  - destruct (ascii_dec " " c) as [E|_]; [congruence | reflexivity].
Qed.

Lemma cut_space_nil : cut " " EmptyString = None.
Proof. reflexivity. Qed.

End StringFacts.

(** ** Splitting the authorization value *)

Section Splitting.

Lemma SplitN_two (s : string) :
  SplitN s " " 2 =
    match cut " " s with
    | Some (a, b) => [a; b]
    | None => [s]
    end.
Proof.
  unfold SplitN.
  change (2 =? 0) with false. change (2 <? 0) with false.
  change (Z.to_nat 2) with 2%nat. cbn [pieces].
  destruct (cut " " s) as [[a b]|]; reflexivity.
Qed.

(** A scheme without a space, a space, then the credential: the split
    gives back exactly the two. *)
Lemma cut_space_app (a b : string) :
  Contains a " " = false -> cut " " (a +:+ " " +:+ b) = Some (a, b).
Proof.
  unfold Contains. induction a as [|c a IH]; intros Ha.
  - change (EmptyString +:+ " " +:+ b) with (String " " b).
    now rewrite cut_space_cons.
  - rewrite cut_space_cons in Ha.
    change (String c a +:+ " " +:+ b) with (String c (a +:+ " " +:+ b)).
    rewrite cut_space_cons.
    destruct (Ascii.eqb c " "); [discriminate|].
    destruct (cut " " a) as [[x y]|] eqn:E; [discriminate|].
    now rewrite IH.
Qed.

Lemma cut_space_inv (s a b : string) :
  cut " " s = Some (a, b) ->
  s = a +:+ " " +:+ b /\ Contains a " " = false.
Proof.
  unfold Contains. revert a b.
  induction s as [|c s IH]; intros a b H.
  - discriminate.
  - rewrite cut_space_cons in H.
    destruct (Ascii.eqb_spec c " ") as [->|Hc].
    + injection H as <- <-. split; reflexivity.
    + destruct (cut " " s) as [[x y]|] eqn:E; [|discriminate].
      injection H as <- <-.
      destruct (IH x y eq_refl) as [-> Hx]. split; [reflexivity|].
      rewrite cut_space_cons.
      destruct (Ascii.eqb_spec c " ") as [?|_]; [contradiction|].
      destruct (cut " " x) as [[? ?]|]; [discriminate | reflexivity].
Qed.

Lemma cut_space_none (s : string) :
  cut " " s = None -> forall a b, s <> a +:+ " " +:+ b.
Proof.
  intros H a b ->. revert H.
  induction a as [|c a IH].
  - change (EmptyString +:+ " " +:+ b) with (String " " b).
    rewrite cut_space_cons. discriminate.
  - change (String c a +:+ " " +:+ b) with (String c (a +:+ " " +:+ b)).
    rewrite cut_space_cons.
    destruct (Ascii.eqb c " "); [discriminate|].
    destruct (cut " " (a +:+ " " +:+ b)) as [[? ?]|]; [discriminate|].
    intros _. now apply IH.
Qed.

(** [Contains s " "] says what it should. *)
Lemma Contains_space (s : string) :
  Contains s " " = true <-> exists a b, s = a +:+ " " +:+ b.
Proof.
  unfold Contains. split.
  - destruct (cut " " s) as [[a b]|] eqn:E; [|discriminate].
    intros _. exists a, b. now apply cut_space_inv.
  - intros (a & b & ->).
    destruct (cut " " (a +:+ " " +:+ b)) as [[? ?]|] eqn:E; [reflexivity|].
    exfalso. exact (cut_space_none _ E a b eq_refl).
Qed.

Lemma SplitN_scheme (key v : string) :
  Contains key " " = false -> SplitN (key +:+ " " +:+ v) " " 2 = [key; v].
Proof. intros H. rewrite SplitN_two, cut_space_app; auto. Qed.

Lemma SplitN_two_inv (s a b : string) :
  SplitN s " " 2 = [a; b] -> s = a +:+ " " +:+ b /\ Contains a " " = false.
Proof.
  rewrite SplitN_two.
  destruct (cut " " s) as [[x y]|] eqn:E; [|discriminate].
  intros [= <- <-]. now apply cut_space_inv.
Qed.

Lemma SplitN_no_space (s : string) :
  Contains s " " = false -> SplitN s " " 2 = [s].
Proof.
  unfold Contains. rewrite SplitN_two.
  destruct (cut " " s) as [[? ?]|]; [discriminate | reflexivity].
Qed.

End Splitting.

(** ** The handler, block by block *)

Section Extraction.

Variable config : Config.
Variable ctx : Ctx.

Lemma headerToken_supplies (v : string) :
  headerToken config ctx = Some v <-> supplies config ctx FromHeader v.
Proof.
  unfold headerToken, supplies.
  set (h := Get ctx "authorization").
  rewrite SplitN_two.
  destruct (0 <? len h) eqn:Hlen.
  - destruct (cut " " h) as [[a b]|]; cbn [List.length nth andb Z.of_nat].
    + change (Z.of_nat 2 =? 2) with true. cbn [andb].
      destruct (String.eqb_spec a (HeaderKey config)) as [->|Hne].
      * split; intros [= ->]; reflexivity.
      * split; [discriminate | intros [= ? ?]; contradiction].
    + change (Z.of_nat 1 =? 2) with false. cbn [andb].
      split; discriminate.
  - apply len_zero in Hlen. rewrite Hlen. cbn. split; discriminate.
Qed.

Lemma headerToken_silent :
  headerToken config ctx = None <-> silent config ctx FromHeader.
Proof.
  cbn [silent]. split.
  - intros H v Hv. apply headerToken_supplies in Hv. congruence.
  - intros H. destruct (headerToken config ctx) as [v|] eqn:E; [|reflexivity].
    apply headerToken_supplies in E. now apply H in E.
Qed.

Lemma supplied_of_supplies (src : Source) (v : string) :
  supplies config ctx src v -> v <> EmptyString ->
  supplied config ctx src = Some v.
Proof.
  destruct src; cbn [supplies supplied]; intros H Hv.
  - rewrite H. apply len_pos in Hv. now rewrite Hv.
  - rewrite H. apply len_pos in Hv. now rewrite Hv.
  - now apply headerToken_supplies.
Qed.

Lemma supplied_of_silent (src : Source) :
  silent config ctx src -> supplied config ctx src = None.
Proof.
  destruct src; cbn [silent supplied]; intros H.
  - now rewrite H.
  - now rewrite H.
  - now apply headerToken_silent.
Qed.

Lemma supplies_of_supplied (src : Source) (v : string) :
  supplied config ctx src = Some v -> supplies config ctx src v.
Proof.
  destruct src; cbn [supplies supplied].
  - destruct (0 <? len _); [now intros [= ->] | discriminate].
  - destruct (0 <? len _); [now intros [= ->] | discriminate].
  - apply headerToken_supplies.
Qed.

(** A query parameter or a body field that is handed over is never
    empty; only the header's credential can be. *)
Lemma supplied_nonempty (src : Source) (v : string) :
  src <> FromHeader -> supplied config ctx src = Some v -> v <> EmptyString.
Proof.
  destruct src; cbn [supplied]; intros Hs; try contradiction.
  - destruct (0 <? len _) eqn:E; [|discriminate].
    intros [= <-]. now apply len_pos.
  - destruct (0 <? len _) eqn:E; [|discriminate].
    intros [= <-]. now apply len_pos.
Qed.

(** The handler's three blocks are the shared check run over query,
    body and header. *)
Lemma extract_checks :
  extract config ctx =
    check (check (check (EmptyString, false)
                        (supplied config ctx FromQuery))
                 (supplied config ctx FromBody))
          (supplied config ctx FromHeader).
Proof.
  unfold extract, supplied, headerToken, check.
  destruct (0 <? len (Query ctx (QueryKey config)));
    destruct (0 <? len (Body ctx (BodyKey config)));
    destruct (0 <? len (Get ctx "authorization")); try reflexivity;
    destruct (_ && _)%bool; reflexivity.
Qed.

Lemma extract_extractIn :
  extract config ctx = extractIn [FromQuery; FromBody; FromHeader] config ctx.
Proof. rewrite extract_checks. reflexivity. Qed.

Lemma check_Some (t v : string) (e : bool) :
  check (t, e) (Some v) = (v, if 0 <? len t then true else e).
Proof. reflexivity. Qed.

Lemma check_None (st : string * bool) : check st None = st.
Proof. now destruct st. Qed.

(** What the handler does with the two variables. *)
Lemma middleware_conflict (next : Ctx -> Ctx) :
  conflict config ctx = true -> middleware config next ctx = Status ctx 400.
Proof.
  unfold conflict, middleware.
  destruct (extract config ctx) as [token errored]. cbn [snd].
  now intros ->.
Qed.

Lemma middleware_pass (next : Ctx -> Ctx) :
  conflict config ctx = false ->
  middleware config next ctx =
    next (Locals ctx (RequestKey config) (fst (extract config ctx))).
Proof.
  unfold conflict, middleware.
  destruct (extract config ctx) as [token errored]. cbn [snd fst].
  now intros ->.
Qed.

End Extraction.

(** ** Conflicts do not depend on the order, as long as every value
       handed over is non-empty *)

Section Order.

Lemma check_fold_conflict (vals : list (option string)) :
  Forall (fun o => o <> Some EmptyString) vals ->
  forall (t : string) (e : bool),
    snd (fold_left check vals (t, e)) =
      (e || Nat.leb 2 ((if 0 <? len t then 1 else 0) + suppliedCount vals))%bool.
Proof.
  induction 1 as [|o vals Ho _ IH]; intros t e.
  - cbn. destruct (0 <? len t); cbn; now rewrite orb_false_r.
  - destruct o as [v|]; cbn [fold_left suppliedCount].
    + rewrite check_Some, IH.
      assert (Hv : (0 <? len v) = true) by (apply len_pos; congruence).
      rewrite Hv.
      destruct (0 <? len t); destruct e; cbn [orb Nat.add Nat.leb];
        try reflexivity.
    + rewrite check_None. apply IH.
Qed.

Lemma suppliedCount_Permutation (l l' : list (option string)) :
  Permutation l l' -> suppliedCount l = suppliedCount l'.
Proof.
  induction 1 as [|o l l' _ IH|o o' l|l l' l'' _ IH1 _ IH2].
  - reflexivity.
  - destruct o; cbn; now rewrite IH.
  - destruct o, o'; reflexivity.
  - now rewrite IH1.
Qed.

Lemma extractIn_fold (order : list Source) (config : Config) (ctx : Ctx) :
  extractIn order config ctx =
    fold_left check (map (supplied config ctx) order) (EmptyString, false).
Proof.
  unfold extractIn. generalize (EmptyString, false).
  induction order as [|src order IH]; intros st; [reflexivity|].
  cbn. apply IH.
Qed.

(** X12. With a non-empty credential (or no matching header at all),
    every order of the three checks flags the same requests. *)
Lemma conflict_order_independent
    (config : Config) (ctx : Ctx) (order : list Source) :
  Permutation [FromQuery; FromBody; FromHeader] order ->
  (forall v, supplied config ctx FromHeader = Some v -> v <> EmptyString) ->
  snd (extractIn order config ctx) = conflict config ctx.
Proof.
  intros Hperm Hcred. unfold conflict.
  rewrite extract_extractIn, !extractIn_fold.
  assert (Hne : forall l, Forall (fun o => o <> Some EmptyString)
                            (map (supplied config ctx) l)).
  { induction l as [|src l IH]; constructor; [|exact IH].
    intros E. destruct src.
    - now apply (supplied_nonempty config ctx FromQuery EmptyString).
    - now apply (supplied_nonempty config ctx FromBody EmptyString).
    - now apply (Hcred EmptyString). }
  rewrite !check_fold_conflict by apply Hne.
  f_equal. f_equal. f_equal.
  apply suppliedCount_Permutation, Permutation_map, Permutation_sym, Hperm.
Qed.

End Order.

(** ** Configuration *)

(** C7. Resolution of the configuration: without options the four keys
    are "access_token", "Bearer", "access_token" and "token"; with options
    each key is the supplied one when that is non-empty and its own
    default otherwise, whatever the other three fields hold; and no
    resolved key is the empty string. *)
Theorem resolveConfig_fields (opts : option Config) :
  resolveConfig None =
    {| BodyKey := "access_token"; HeaderKey := "Bearer";
       QueryKey := "access_token"; RequestKey := "token" |}
  /\ (forall o : Config,
        BodyKey (resolveConfig (Some o)) =
          (if String.eqb (BodyKey o) EmptyString
           then "access_token" else BodyKey o)
        /\ HeaderKey (resolveConfig (Some o)) =
          (if String.eqb (HeaderKey o) EmptyString
           then "Bearer" else HeaderKey o)
        /\ QueryKey (resolveConfig (Some o)) =
          (if String.eqb (QueryKey o) EmptyString
           then "access_token" else QueryKey o)
        /\ RequestKey (resolveConfig (Some o)) =
          (if String.eqb (RequestKey o) EmptyString
           then "token" else RequestKey o))
  /\ BodyKey (resolveConfig opts) <> EmptyString
  /\ HeaderKey (resolveConfig opts) <> EmptyString
  /\ QueryKey (resolveConfig opts) <> EmptyString
  /\ RequestKey (resolveConfig opts) <> EmptyString.
Proof.
  split; [reflexivity|]. split.
  - intros [b h q r]. cbn [resolveConfig BodyKey HeaderKey QueryKey RequestKey].
    destruct b, h, q, r; repeat split; reflexivity.
  - destruct opts as [[b h q r]|]; [|repeat split; discriminate].
    destruct b, h, q, r; repeat split; discriminate.
Qed.

(** ** Extraction *)

Section Sources.

Variable config : Config.

(** Two sources with a non-empty value flag a conflict, in any context. *)
Lemma two_supplied_conflict (ctx : Ctx) (s1 s2 : Source) (v1 v2 : string) :
  s1 <> s2 ->
  supplies config ctx s1 v1 -> v1 <> EmptyString ->
  supplies config ctx s2 v2 -> v2 <> EmptyString ->
  conflict config ctx = true.
Proof.
  intros Hs H1 N1 H2 N2.
  apply supplied_of_supplies in H1; [|exact N1].
  apply supplied_of_supplies in H2; [|exact N2].
  apply len_pos in N1. apply len_pos in N2.
  unfold conflict. rewrite extract_checks.
  destruct s1, s2; try contradiction; rewrite H1, H2;
    repeat match goal with
           | |- context [supplied ?c ?x ?s] => destruct (supplied c x s)
           end;
    cbn [check snd]; rewrite ?N1, ?N2;
    repeat match goal with
           | |- context [0 <? len ?s] => destruct (0 <? len s)
           end; reflexivity.
Qed.

(** One source with a non-empty value and two silent ones: that value
    is the token and no conflict is flagged. *)
Lemma one_supplied_extract (ctx : Ctx) (src : Source) (v : string) :
  supplies config ctx src v -> v <> EmptyString ->
  (forall src', src' <> src -> silent config ctx src') ->
  extract config ctx = (v, false).
Proof.
  intros H N Hs.
  apply supplied_of_supplies in H; [|exact N].
  rewrite extract_checks.
  destruct src; rewrite H;
    repeat match goal with
           | |- context [supplied ?c ?x ?s] =>
               rewrite (supplied_of_silent c x s) by (apply Hs; discriminate)
           end; reflexivity.
Qed.

Lemma none_supplied_extract (ctx : Ctx) :
  (forall src, silent config ctx src) ->
  extract config ctx = (EmptyString, false).
Proof.
  intros Hs. rewrite extract_checks.
  now rewrite !supplied_of_silent by apply Hs.
Qed.

End Sources.

Section Claims.

Variable opts : option Config.
Variable next : Ctx -> Ctx.

(** C1. Whenever two different sources of a request each supply a
    non-empty value (equal or not), the handler flags a conflict: the
    response has status 400 and an empty body, and the rest of the
    handler chain is not run (whatever that chain is, the outcome is the
    same). *)
Theorem multiple_sources_rejected
    (r : Request) (s1 s2 : Source) (v1 v2 : string) :
  s1 <> s2 ->
  supplies (resolveConfig opts) (AcquireCtx r) s1 v1 -> v1 <> EmptyString ->
  supplies (resolveConfig opts) (AcquireCtx r) s2 v2 -> v2 <> EmptyString ->
  conflict (resolveConfig opts) (AcquireCtx r) = true
  /\ statusCode (New opts next (AcquireCtx r)) = 400
  /\ respBody (New opts next (AcquireCtx r)) = EmptyString
  /\ forall next' : Ctx -> Ctx,
       New opts next' (AcquireCtx r) = New opts next (AcquireCtx r).
Proof.
  intros Hs H1 N1 H2 N2.
  pose proof (two_supplied_conflict _ _ _ _ _ _ Hs H1 N1 H2 N2) as Hc.
  unfold New. split; [exact Hc|].
  rewrite (middleware_conflict _ _ next Hc).
  repeat split. intros next'. now rewrite (middleware_conflict _ _ next' Hc).
Qed.

(** C2. When exactly one source supplies a non-empty value [v] (for the
    header: the authorization value splits at its first space into the
    scheme [HeaderKey] and the credential [v]) and the other two supply
    nothing, extraction succeeds with the token [v]: no conflict, and
    the chain continues with [v] stored under [RequestKey]. *)
Theorem single_source_token (ctx : Ctx) (src : Source) (v : string) :
  supplies (resolveConfig opts) ctx src v -> v <> EmptyString ->
  (forall src', src' <> src -> silent (resolveConfig opts) ctx src') ->
  conflict (resolveConfig opts) ctx = false
  /\ fst (extract (resolveConfig opts) ctx) = v
  /\ New opts next ctx =
       next (Locals ctx (RequestKey (resolveConfig opts)) v).
Proof.
  intros H N Hs.
  pose proof (one_supplied_extract _ ctx src v H N Hs) as E.
  assert (Hc : conflict (resolveConfig opts) ctx = false)
    by (unfold conflict; now rewrite E).
  unfold New. rewrite (middleware_pass _ _ next Hc), E. auto.
Qed.

(** C5. When no source supplies a value, extraction succeeds with the
    empty token: no conflict, and the chain continues with the empty
    string stored under [RequestKey]. *)
Theorem no_source_empty_token (ctx : Ctx) :
  (forall src, silent (resolveConfig opts) ctx src) ->
  conflict (resolveConfig opts) ctx = false
  /\ fst (extract (resolveConfig opts) ctx) = EmptyString
  /\ New opts next ctx =
       next (Locals ctx (RequestKey (resolveConfig opts)) EmptyString).
Proof.
  intros Hs.
  pose proof (none_supplied_extract _ ctx Hs) as E.
  assert (Hc : conflict (resolveConfig opts) ctx = false)
    by (unfold conflict; now rewrite E).
  unfold New. rewrite (middleware_pass _ _ next Hc), E. auto.
Qed.

End Claims.

(** ** A header that does not match *)

Section Header.

Variable config : Config.
Variable ctx : Ctx.

Lemma Get_withoutAuthorization :
  Get (withoutAuthorization ctx) "authorization" = EmptyString.
Proof.
  unfold Get, withoutAuthorization. cbn [request reqHeader].
  change (to_lower "authorization") with "authorization".
  now rewrite lookup_delete_eq.
Qed.

Lemma supplied_withoutAuthorization (src : Source) :
  src <> FromHeader ->
  supplied config (withoutAuthorization ctx) src = supplied config ctx src.
Proof. destruct src; [reflexivity | reflexivity | contradiction]. Qed.

Lemma headerToken_withoutAuthorization :
  headerToken config (withoutAuthorization ctx) = None.
Proof. unfold headerToken. now rewrite Get_withoutAuthorization. Qed.

Lemma headerToken_mismatch :
  Contains (Get ctx "authorization") " " = false
  \/ nth 0 (SplitN (Get ctx "authorization") " " 2) EmptyString
       <> HeaderKey config ->
  headerToken config ctx = None.
Proof.
  unfold headerToken. intros [Hns|Hne].
  - rewrite (SplitN_no_space _ Hns). cbn [List.length].
    change (Z.of_nat 1 =? 2) with false. cbn [andb].
    now destruct (0 <? len _).
  - apply String.eqb_neq in Hne. rewrite Hne, andb_false_r.
    now destruct (0 <? len _).
Qed.

Lemma extract_mismatch :
  Contains (Get ctx "authorization") " " = false
  \/ nth 0 (SplitN (Get ctx "authorization") " " 2) EmptyString
       <> HeaderKey config ->
  extract config ctx = extract config (withoutAuthorization ctx).
Proof.
  intros H. rewrite !extract_checks.
  rewrite !supplied_withoutAuthorization by discriminate.
  cbn [supplied].
  now rewrite headerToken_withoutAuthorization, (headerToken_mismatch H).
Qed.

(** At most one source hands over a value: no conflict, whatever the
    value. *)
Lemma sole_contribution_no_conflict :
  (forall s1 s2 v1 v2,
      supplied config ctx s1 = Some v1 -> supplied config ctx s2 = Some v2 ->
      s1 = s2) ->
  conflict config ctx = false.
Proof.
  intros H. unfold conflict. rewrite extract_checks.
  destruct (supplied config ctx FromQuery) as [q|] eqn:Eq;
    destruct (supplied config ctx FromBody) as [b|] eqn:Eb;
    destruct (supplied config ctx FromHeader) as [h|] eqn:Eh;
    try reflexivity;
    try (now specialize (H _ _ _ _ Eq Eb));
    try (now specialize (H _ _ _ _ Eq Eh));
    try (now specialize (H _ _ _ _ Eb Eh)).
Qed.

End Header.

Section Outcome.

Variable opts : option Config.
Variable next : Ctx -> Ctx.

(** C4. An authorization header without a space, or whose scheme (the
    part before the first space) differs from [HeaderKey], is ignored:
    token and conflict flag are those of the same request without the
    header, and so is what the handler does. *)
Theorem mismatched_header_ignored (ctx : Ctx) :
  Contains (Get ctx "authorization") " " = false
  \/ nth 0 (SplitN (Get ctx "authorization") " " 2) EmptyString
       <> HeaderKey (resolveConfig opts) ->
  extract (resolveConfig opts) ctx =
    extract (resolveConfig opts) (withoutAuthorization ctx)
  /\ New opts next ctx =
       if conflict (resolveConfig opts) (withoutAuthorization ctx)
       then Status ctx 400
       else next (Locals ctx (RequestKey (resolveConfig opts))
                    (fst (extract (resolveConfig opts)
                            (withoutAuthorization ctx)))).
Proof.
  intros H. pose proof (extract_mismatch (resolveConfig opts) ctx H) as E.
  split; [exact E|].
  unfold New, conflict. rewrite <- E.
  destruct (snd (extract (resolveConfig opts) ctx)) eqn:Hc.
  - now apply middleware_conflict.
  - now apply middleware_pass.
Qed.

(** C8. When no conflict is flagged, the chain continues on a context
    whose request-scoped values are the earlier ones with the token
    (empty or not) stored under [RequestKey]: that key reads the token,
    every other key, "token" included when [RequestKey] is another name,
    reads what it read before. *)
Theorem token_published (ctx : Ctx) :
  conflict (resolveConfig opts) ctx = false ->
  let token := fst (extract (resolveConfig opts) ctx) in
  let ctx' := Locals ctx (RequestKey (resolveConfig opts)) token in
  New opts next ctx = next ctx'
  /\ locals ctx' = <[RequestKey (resolveConfig opts) := token]> (locals ctx)
  /\ LocalsGet ctx' (RequestKey (resolveConfig opts)) = Some token
  /\ forall key, key <> RequestKey (resolveConfig opts) ->
                 LocalsGet ctx' key = LocalsGet ctx key.
Proof.
  intros Hc token ctx'. unfold New.
  rewrite (middleware_pass _ _ next Hc). fold token. fold ctx'.
  split; [reflexivity|]. split; [reflexivity|].
  unfold LocalsGet, ctx', Locals. cbn [locals]. split.
  - apply lookup_insert_eq.
  - intros key Hk. now apply lookup_insert_ne.
Qed.

(** C10. When a conflict is flagged, nothing is stored: the outcome is
    the incoming context with status 400, so its request-scoped values
    are the incoming ones, under every key. *)
Theorem conflict_publishes_nothing (ctx : Ctx) :
  conflict (resolveConfig opts) ctx = true ->
  New opts next ctx = Status ctx 400
  /\ locals (New opts next ctx) = locals ctx
  /\ forall key, LocalsGet (New opts next ctx) key = LocalsGet ctx key.
Proof.
  intros Hc. unfold New. rewrite (middleware_conflict _ _ next Hc).
  repeat split.
Qed.

(** C9, amended. When [HeaderKey] holds no space, an authorization
    value made of [HeaderKey] and one space splits into that scheme and
    an empty credential, which the handler takes: the token ends empty,
    and a conflict is flagged exactly when the query parameter or the
    body field is non-empty, in which case the response is 400. *)
Theorem empty_credential_contributes (ctx : Ctx) :
  Contains (HeaderKey (resolveConfig opts)) " " = false ->
  Get ctx "authorization" = HeaderKey (resolveConfig opts) +:+ " " ->
  supplied (resolveConfig opts) ctx FromHeader = Some EmptyString
  /\ fst (extract (resolveConfig opts) ctx) = EmptyString
  /\ conflict (resolveConfig opts) ctx =
       ((0 <? len (Query ctx (QueryKey (resolveConfig opts))))
        || (0 <? len (Body ctx (BodyKey (resolveConfig opts)))))%bool
  /\ New opts next ctx =
       if ((0 <? len (Query ctx (QueryKey (resolveConfig opts))))
           || (0 <? len (Body ctx (BodyKey (resolveConfig opts)))))%bool
       then Status ctx 400
       else next (Locals ctx (RequestKey (resolveConfig opts)) EmptyString).
Proof.
  intros Hk Hh.
  assert (Hs : supplied (resolveConfig opts) ctx FromHeader = Some EmptyString).
  { cbn [supplied]. apply headerToken_supplies. cbn [supplies].
    rewrite Hh. exact (SplitN_scheme _ EmptyString Hk). }
  assert (E : extract (resolveConfig opts) ctx =
              (EmptyString,
               ((0 <? len (Query ctx (QueryKey (resolveConfig opts))))
                || (0 <? len (Body ctx (BodyKey (resolveConfig opts)))))%bool)).
  { rewrite extract_checks, Hs. cbn [supplied check].
    destruct (0 <? len (Query ctx _)) eqn:Eq;
      destruct (0 <? len (Body ctx _)) eqn:Eb;
      cbn [check orb]; rewrite ?Eq, ?Eb; reflexivity. }
  split; [exact Hs|]. unfold conflict, New. rewrite E. cbn [fst snd].
  split; [reflexivity|]. split; [reflexivity|].
  destruct (_ || _)%bool eqn:Hc.
  - apply middleware_conflict. unfold conflict. now rewrite E.
  - rewrite middleware_pass by (unfold conflict; now rewrite E).
    now rewrite E.
Qed.

End Outcome.

(** ** The test suite *)

Section Tests.

(** "It should not return a token if none is provided". *)
Example first_default :
  respBody (Test (app defaultSettings "token") firstRequest) = "".
Proof. vm_compute. reflexivity. Qed.

(** "It should return token from header". *)
Example second_default :
  respBody (Test (app defaultSettings "token") (secondRequest "Bearer"))
  = "nanachi-cute".
Proof. vm_compute. reflexivity. Qed.

(** "It should return token from param". *)
Example third_default :
  respBody (Test (app defaultSettings "token") (thirdRequest "access_token"))
  = "nanachi-cute".
Proof. vm_compute. reflexivity. Qed.

(** "It should return token from body". *)
Example fourth_default :
  respBody (Test (app defaultSettings "token") (fourthRequest "access_token"))
  = "nanachi-cute".
Proof. vm_compute. reflexivity. Qed.

(** "It should return HTTP status 400 if token was provided multiple
    times". *)
Example fifth_default :
  statusCode (Test (app defaultSettings "token")
                (fifthRequest "access_token" "Bearer")) = 400.
Proof. vm_compute. reflexivity. Qed.

Example first_custom :
  respBody (Test (app customSettings "bearer") firstRequest) = "".
Proof. vm_compute. reflexivity. Qed.

Example second_custom :
  respBody (Test (app customSettings "bearer") (secondRequest "custom_token"))
  = "nanachi-cute".
Proof. vm_compute. reflexivity. Qed.

Example third_custom :
  respBody (Test (app customSettings "bearer") (thirdRequest "custom_token"))
  = "nanachi-cute".
Proof. vm_compute. reflexivity. Qed.

Example fourth_custom :
  respBody (Test (app customSettings "bearer") (fourthRequest "custom_token"))
  = "nanachi-cute".
Proof. vm_compute. reflexivity. Qed.

Example fifth_custom :
  statusCode (Test (app customSettings "bearer")
                (fifthRequest "custom_token" "custom_token")) = 400.
Proof. vm_compute. reflexivity. Qed.

(** With the custom settings the default names are no source. *)
Example default_names_ignored :
  respBody (Test (app customSettings "bearer")
              (fifthRequest "access_token" "Bearer")) = ""
  /\ statusCode (Test (app customSettings "bearer")
                   (fifthRequest "access_token" "Bearer")) = 200.
Proof. vm_compute. split; reflexivity. Qed.

End Tests.

(** ** A scheme with an empty credential *)

(** C3. The request [?access_token=abc] with [Authorization: Bearer ]
    (nothing after the space) has one non-empty value, the query
    parameter: the body field is empty and the header splits into
    "Bearer" and the empty credential.  The handler flags a conflict all
    the same and answers 400, whatever follows in the chain. *)
Theorem bare_scheme_rejected (next : Ctx -> Ctx) :
  Query (AcquireCtx bareSchemeRequest) (QueryKey (resolveConfig None)) = "abc"
  /\ Body (AcquireCtx bareSchemeRequest) (BodyKey (resolveConfig None)) = ""
  /\ SplitN (Get (AcquireCtx bareSchemeRequest) "authorization") " " 2
     = [HeaderKey (resolveConfig None); ""]
  /\ conflict (resolveConfig None) (AcquireCtx bareSchemeRequest) = true
  /\ statusCode (New None next (AcquireCtx bareSchemeRequest)) = 400.
Proof.
  assert (Hc : conflict (resolveConfig None) (AcquireCtx bareSchemeRequest)
               = true) by (vm_compute; reflexivity).
  split; [vm_compute; reflexivity|].
  split; [vm_compute; reflexivity|].
  split; [vm_compute; reflexivity|].
  split; [exact Hc|].
  unfold New. now rewrite (middleware_conflict _ _ next Hc).
Qed.

(** C6. On the same request the order matters: query, body, header (the
    handler's order) flags a conflict, while header, query, body run by
    the same checks does not. *)
Theorem bare_scheme_order_dependent :
  conflict (resolveConfig None) (AcquireCtx bareSchemeRequest) = true
  /\ extractIn [FromQuery; FromBody; FromHeader]
       (resolveConfig None) (AcquireCtx bareSchemeRequest) = ("", true)
  /\ extractIn [FromHeader; FromQuery; FromBody]
       (resolveConfig None) (AcquireCtx bareSchemeRequest) = ("abc", false).
Proof. repeat split; vm_compute; reflexivity. Qed.

(** C9 as stated fails for a [HeaderKey] that holds a space: with the
    scheme "Token v2", the authorization value "Token v2 " is [HeaderKey]
    followed by one space, the query parameter is non-empty, yet the
    split gives "Token" and "v2 ", the header is skipped, the token stays
    "abc" and the chain continues. *)
Lemma spaced_scheme_not_contributing :
  Get (AcquireCtx spacedSchemeRequest) "authorization"
    = HeaderKey (resolveConfig (Some spacedSettings)) +:+ " "
  /\ Query (AcquireCtx spacedSchemeRequest)
       (QueryKey (resolveConfig (Some spacedSettings))) = "abc"
  /\ SplitN (Get (AcquireCtx spacedSchemeRequest) "authorization") " " 2
     = ["Token"; "v2 "]
  /\ extract (resolveConfig (Some spacedSettings))
       (AcquireCtx spacedSchemeRequest) = ("abc", false)
  /\ forall next : Ctx -> Ctx,
       New (Some spacedSettings) next (AcquireCtx spacedSchemeRequest)
       = next (Locals (AcquireCtx spacedSchemeRequest) "token" "abc").
Proof.
  assert (E : extract (resolveConfig (Some spacedSettings))
                (AcquireCtx spacedSchemeRequest) = ("abc", false))
    by (vm_compute; reflexivity).
  split; [vm_compute; reflexivity|].
  split; [vm_compute; reflexivity|].
  split; [vm_compute; reflexivity|].
  split; [exact E|].
  intros next. unfold New.
  rewrite middleware_pass by (unfold conflict; now rewrite E).
  now rewrite E.
Qed.

(** ** The properties at the requests of the test suite *)

(** Query parameter and header together (the fifth test). *)
Lemma multiple_sources_rejected_witness :
  statusCode (New None (fun c => c)
                (AcquireCtx (fifthRequest "access_token" "Bearer"))) = 400
  /\ respBody (New None (fun c => c)
                 (AcquireCtx (fifthRequest "access_token" "Bearer"))) = "".
Proof.
  refine (let H := multiple_sources_rejected None (fun c => c)
                     (fifthRequest "access_token" "Bearer")
                     FromQuery FromHeader "nanachi-cute" "nanachi-cute"
                     _ _ _ _ _ in
          conj (proj1 (proj2 H)) (proj1 (proj2 (proj2 H)))).
  - discriminate.
  - vm_compute. reflexivity.
  - discriminate.
  - vm_compute. reflexivity.
  - discriminate.
Defined.

(** The header alone (the second test). *)
Lemma single_source_token_witness :
  New None (fun c => c) (AcquireCtx (secondRequest "Bearer"))
  = Locals (AcquireCtx (secondRequest "Bearer")) "token" "nanachi-cute".
Proof.
  refine (proj2 (proj2 (single_source_token None (fun c => c)
                          (AcquireCtx (secondRequest "Bearer"))
                          FromHeader "nanachi-cute" _ _ _))).
  - vm_compute. reflexivity.
  - discriminate.
  - intros [] Hs.
    + vm_compute. reflexivity.
    + vm_compute. reflexivity.
    + contradiction.
Defined.

(** No source at all (the first test). *)
Lemma no_source_empty_token_witness :
  New None (fun c => c) (AcquireCtx firstRequest)
  = Locals (AcquireCtx firstRequest) "token" "".
Proof.
  refine (proj2 (proj2 (no_source_empty_token None (fun c => c)
                          (AcquireCtx firstRequest) _))).
  intros [].
  - vm_compute. reflexivity.
  - vm_compute. reflexivity.
  - intros v. vm_compute. discriminate.
Defined.

(** [Authorization: Basic xyz] next to a query token: the token is the
    query's, as without the header. *)
Lemma mismatched_header_ignored_witness :
  extract (resolveConfig None) (AcquireCtx basicRequest)
  = extract (resolveConfig None) (withoutAuthorization (AcquireCtx basicRequest))
  /\ extract (resolveConfig None) (AcquireCtx basicRequest) = ("abc", false).
Proof.
  split.
  - refine (proj1 (mismatched_header_ignored None (fun c => c)
                     (AcquireCtx basicRequest) _)).
    right. vm_compute. discriminate.
  - vm_compute. reflexivity.
Defined.

(** The custom settings publish under "bearer" and leave an earlier value
    alone; "token" stays unset. *)
Lemma token_published_witness :
  LocalsGet (New (Some customSettings) (fun c => c)
               (visitedCtx (thirdRequest "custom_token"))) "bearer"
  = Some "nanachi-cute"
  /\ LocalsGet (Locals (visitedCtx (thirdRequest "custom_token")) "bearer"
                  "nanachi-cute") "token" = None.
Proof.
  pose (H := token_published (Some customSettings) (fun c => c)
               (visitedCtx (thirdRequest "custom_token"))
               (ltac:(vm_compute; reflexivity))).
  cbv zeta in H. destruct H as (Hn & _ & Hk & Ho). split.
  - rewrite Hn. exact Hk.
  - change (Locals (visitedCtx (thirdRequest "custom_token")) "bearer"
              "nanachi-cute")
      with (Locals (visitedCtx (thirdRequest "custom_token"))
              (RequestKey (resolveConfig (Some customSettings)))
              (fst (extract (resolveConfig (Some customSettings))
                      (visitedCtx (thirdRequest "custom_token"))))).
    rewrite (Ho "token") by discriminate. vm_compute. reflexivity.
Defined.

(** On the conflicting request an earlier value is all there is. *)
Lemma conflict_publishes_nothing_witness :
  locals (New None (fun c => c)
            (visitedCtx (fifthRequest "access_token" "Bearer")))
  = locals (visitedCtx (fifthRequest "access_token" "Bearer")).
Proof.
  refine (proj1 (proj2 (conflict_publishes_nothing None (fun c => c)
                          (visitedCtx (fifthRequest "access_token" "Bearer"))
                          _))).
  vm_compute. reflexivity.
Defined.

(** [Authorization: Bearer ] next to a query token. *)
Lemma empty_credential_contributes_witness :
  supplied (resolveConfig None) (AcquireCtx bareSchemeRequest) FromHeader
  = Some ""
  /\ New None (fun c => c) (AcquireCtx bareSchemeRequest)
     = Status (AcquireCtx bareSchemeRequest) 400.
Proof.
  refine (let H := empty_credential_contributes None (fun c => c)
                     (AcquireCtx bareSchemeRequest) _ _ in
          conj (proj1 H) (proj2 (proj2 (proj2 H)))).
  - vm_compute. reflexivity.
  - vm_compute. reflexivity.
Defined.

(** ** The exact rule of the handler *)

Section Rule.

Variable config : Config.
Variable ctx : Ctx.

(** X1. In the handler's order a conflict is flagged exactly when at
    least two of the three blocks are entered: a non-empty query
    parameter, a non-empty body field, a header with the scheme
    [HeaderKey] (whatever its credential). *)
Theorem conflict_exact :
  conflict config ctx =
    Nat.leb 2 (suppliedCount [supplied config ctx FromQuery;
                              supplied config ctx FromBody;
                              supplied config ctx FromHeader]).
Proof.
  unfold conflict. rewrite extract_checks.
  destruct (supplied config ctx FromQuery) as [q|] eqn:Eq;
    destruct (supplied config ctx FromBody) as [b|] eqn:Eb;
    destruct (supplied config ctx FromHeader) as [h|] eqn:Eh;
    cbn [check snd suppliedCount Nat.leb];
    try apply supplied_nonempty in Eq; try discriminate;
    try apply supplied_nonempty in Eb; try discriminate;
    try (apply len_pos in Eq; rewrite Eq);
    try (apply len_pos in Eb; rewrite Eb);
    try reflexivity;
    destruct (0 <? len _); reflexivity.
Qed.

(** X2. The token the three blocks leave is the credential of a matching
    header; without one, the body field if it is non-empty; otherwise the
    query parameter (empty when absent).  Later sources overwrite earlier
    ones. *)
Theorem token_precedence :
  fst (extract config ctx) = lastSupplied config ctx.
Proof.
  unfold lastSupplied. rewrite extract_checks.
  destruct (supplied config ctx FromHeader) as [h|];
    cbn [supplied];
    destruct (0 <? len (Body ctx (BodyKey config)));
    destruct (0 <? len (Query ctx (QueryKey config))) eqn:Eq;
    cbn [check fst]; try reflexivity.
  apply len_zero in Eq. now rewrite Eq.
Qed.

End Rule.

(** ** Resolving twice *)

Lemma resolved_HeaderKey_nonempty (opts : option Config) :
  HeaderKey (resolveConfig opts) <> EmptyString.
Proof.
  destruct opts as [[b h q r]|]; [|discriminate].
  destruct b, h, q, r; discriminate.
Qed.

(** X3. Resolution is idempotent: a resolved configuration handed back
    as options resolves to itself and gives the same handler; and the
    zero configuration gives the handler of the nil pointer. *)
Theorem resolveConfig_idempotent (opts : option Config) :
  resolveConfig (Some (resolveConfig opts)) = resolveConfig opts
  /\ New (Some (resolveConfig opts)) = New opts
  /\ New (Some {| BodyKey := ""; HeaderKey := ""; QueryKey := "";
                  RequestKey := "" |}) = New None.
Proof.
  assert (E : resolveConfig (Some (resolveConfig opts)) = resolveConfig opts).
  { destruct opts as [[b h q r]|]; [|reflexivity].
    destruct b, h, q, r; reflexivity. }
  split; [exact E|]. split; [|reflexivity].
  unfold New. now rewrite E.
Qed.

(** ** What the extraction looks at *)

Section Frame.

Variable config : Config.

(** The three lookups are all the handler reads. *)
Lemma extract_lookups (ctx ctx' : Ctx) :
  Query ctx (QueryKey config) = Query ctx' (QueryKey config) ->
  Body ctx (BodyKey config) = Body ctx' (BodyKey config) ->
  Get ctx "authorization" = Get ctx' "authorization" ->
  extract config ctx = extract config ctx'.
Proof. unfold extract. now intros -> -> ->. Qed.

Lemma extract_Locals (ctx : Ctx) (key value : string) :
  extract config (Locals ctx key value) = extract config ctx.
Proof. now apply extract_lookups. Qed.

(** X4. Names other than the configured ones are no source: a query
    parameter other than [QueryKey], a body field other than [BodyKey]
    and a header other than Authorization (in any letter case) can be
    added or changed without changing token or conflict flag. *)
Theorem other_names_ignored
    (r : Request) (l : gmap string string) (status : Z) (body : string)
    (q qv f fv h hv : string) :
  q <> QueryKey config -> f <> BodyKey config ->
  to_lower h <> "authorization" ->
  extract config
    (mkCtx (withHeader h hv (withForm f fv (withQuery q qv r))) l status body)
  = extract config (mkCtx r l status body).
Proof.
  intros Hq Hf Hh. apply extract_lookups.
  - unfold Query. cbn [request queryArgs withHeader withForm withQuery].
    now rewrite lookup_insert_ne.
  - unfold Body. cbn [request postArgs withHeader withForm withQuery].
    now rewrite lookup_insert_ne.
  - unfold Get. cbn [request reqHeader withHeader withForm withQuery].
    change (to_lower "authorization") with "authorization".
    now rewrite lookup_insert_ne.
Qed.


(** X6. A scheme that holds a space never matches, since the value is
    cut at its first space: with such a [HeaderKey] no authorization
    value is a source, and token and conflict flag are those of the
    request without the header. *)
Theorem spaced_scheme_never_matches (ctx : Ctx) :
  Contains (HeaderKey config) " " = true ->
  supplied config ctx FromHeader = None
  /\ extract config ctx = extract config (withoutAuthorization ctx).
Proof.
  intros Hk.
  assert (Hn : headerToken config ctx = None).
  { destruct (headerToken config ctx) as [v|] eqn:E; [|reflexivity].
    apply headerToken_supplies in E. cbn [supplies] in E.
    apply SplitN_two_inv in E. destruct E as [_ E]. congruence. }
  split; [exact Hn|].
  rewrite !extract_checks.
  rewrite !supplied_withoutAuthorization by discriminate.
  cbn [supplied]. now rewrite headerToken_withoutAuthorization, Hn.
Qed.

End Frame.

(** X7. An authorization value that starts with a space is never a
    source: its scheme is empty, and no resolved [HeaderKey] is. *)
Theorem leading_space_ignored
    (opts : option Config) (ctx : Ctx) (rest : string) :
  Get ctx "authorization" = String " " rest ->
  SplitN (Get ctx "authorization") " " 2 = [""; rest]
  /\ supplied (resolveConfig opts) ctx FromHeader = None
  /\ extract (resolveConfig opts) ctx
     = extract (resolveConfig opts) (withoutAuthorization ctx).
Proof.
  intros Hh.
  assert (Hs : SplitN (Get ctx "authorization") " " 2 = [""; rest]).
  { rewrite Hh, SplitN_two, cut_space_cons. reflexivity. }
  assert (Hm : Contains (Get ctx "authorization") " " = false
               \/ nth 0 (SplitN (Get ctx "authorization") " " 2) EmptyString
                  <> HeaderKey (resolveConfig opts)).
  { right. rewrite Hs. cbn [nth]. intros E.
    now apply (resolved_HeaderKey_nonempty opts). }
  split; [exact Hs|]. split.
  - cbn [supplied]. now apply headerToken_mismatch.
  - now apply extract_mismatch.
Qed.

(** ** The split gives the value back *)

Section Rejoin.

Lemma pieces_step (k : nat) (s : string) :
  pieces " " (S (S k)) s =
    match cut " " s with
    | None => [s]
    | Some (a, b) => a :: pieces " " (S k) b
    end.
Proof. reflexivity. Qed.

Lemma pieces_rejoin (k : nat) :
  forall s : string,
    String.concat " " (pieces " " (S k) s) = s
    /\ pieces " " (S k) s <> []
    /\ (List.length (pieces " " (S k) s) <= S k)%nat.
Proof.
  induction k as [|k IH]; intros s.
  - cbn. repeat split; [discriminate | lia].
  - rewrite pieces_step. destruct (cut " " s) as [[a b]|] eqn:E.
    + destruct (IH b) as (Hc & Hn & Hl).
      apply cut_space_inv in E. destruct E as [-> _].
      split; [|split; [discriminate | cbn [List.length]; lia]].
      destruct (pieces " " (S k) b) as [|x xs] eqn:Ep; [contradiction|].
      cbn [String.concat]. cbn [String.concat] in Hc. now rewrite Hc.
    + repeat split; [discriminate | cbn; lia].
Qed.

(** X8. Splitting at spaces loses nothing: for every [n] other than 0
    the pieces of [SplitN s " " n], joined by single spaces, are [s]
    again; there is at least one piece, and at most [n] when [n] is
    positive. *)
Theorem SplitN_rejoin (s : string) (n : Z) :
  n <> 0 ->
  String.concat " " (SplitN s " " n) = s
  /\ SplitN s " " n <> []
  /\ (n < 0 \/ Z.of_nat (List.length (SplitN s " " n)) <= n).
Proof.
  intros Hn. unfold SplitN.
  destruct (Z.eqb_spec n 0) as [?|_]; [contradiction|].
  destruct (Z.ltb_spec n 0) as [Hneg|Hpos].
  - destruct (pieces_rejoin (String.length s) s) as (Hc & Hne & _).
    auto.
  - destruct (Z.to_nat n) as [|k] eqn:Ek; [lia|].
    destruct (pieces_rejoin k s) as (Hc & Hne & Hl).
    repeat split; [exact Hc | exact Hne | right; lia].
Qed.

End Rejoin.

(** ** The handler in a chain *)

Section Chain.

Variable opts : option Config.

(** X9. Mounted twice in a row the handler does what it does once: the
    second pass finds the same token and stores it under the same key. *)
Theorem mounted_twice (next : Ctx -> Ctx) (ctx : Ctx) :
  New opts (New opts next) ctx = New opts next ctx.
Proof.
  unfold New. set (config := resolveConfig opts).
  destruct (conflict config ctx) eqn:Hc.
  - now rewrite !(middleware_conflict config ctx _ Hc).
  - rewrite (middleware_pass config ctx (middleware config next) Hc).
    rewrite (middleware_pass config ctx next Hc).
    set (token := fst (extract config ctx)).
    rewrite middleware_pass
      by (unfold conflict; rewrite extract_Locals; exact Hc).
    rewrite extract_Locals. fold token. f_equal.
    unfold Locals. cbn [request locals statusCode respBody]. f_equal.
    apply insert_insert_eq.
Qed.

(** X10. Run alone, the handler never writes a response body and never
    alters the request; it leaves the status as it was or sets 400; and
    every request-scoped value under another name than [RequestKey]
    stays as it was. *)
Theorem handler_footprint (ctx : Ctx) :
  request (New opts (fun c => c) ctx) = request ctx
  /\ respBody (New opts (fun c => c) ctx) = respBody ctx
  /\ (statusCode (New opts (fun c => c) ctx) = statusCode ctx
      \/ statusCode (New opts (fun c => c) ctx) = 400)
  /\ forall key, key <> RequestKey (resolveConfig opts) ->
                 LocalsGet (New opts (fun c => c) ctx) key = LocalsGet ctx key.
Proof.
  unfold New. destruct (conflict (resolveConfig opts) ctx) eqn:Hc.
  - rewrite (middleware_conflict _ _ _ Hc). cbn. auto.
  - rewrite (middleware_pass _ _ _ Hc).
    repeat split; [now left|].
    intros key Hk. unfold LocalsGet, Locals. cbn [locals].
    now apply lookup_insert_ne.
Qed.

End Chain.

(** ** The application of the test *)

Lemma testRequestKey_resolved (config : Config) :
  testRequestKey config = RequestKey (resolveConfig (Some config)).
Proof.
  destruct config as [b h q r]. unfold testRequestKey.
  cbn [resolveConfig BodyKey HeaderKey QueryKey RequestKey].
  destruct b, h, q, r; reflexivity.
Qed.

(** X11. The application built by [TestMiddleware], for any
    configuration: the handler followed by the route handler that sends
    the value stored under the test's request key.  It answers 400 with
    an empty body when a conflict is flagged, and otherwise 200 with the
    extracted token as body. *)
Theorem test_app_replies (config : Config) (r : Request) :
  statusCode (Test (app config (testRequestKey config)) r)
  = (if conflict (resolveConfig (Some config)) (AcquireCtx r)
     then 400 else 200)
  /\ respBody (Test (app config (testRequestKey config)) r)
     = (if conflict (resolveConfig (Some config)) (AcquireCtx r)
        then "" else fst (extract (resolveConfig (Some config)) (AcquireCtx r))).
Proof.
  unfold Test, app. cbn [run]. unfold New.
  rewrite testRequestKey_resolved.
  destruct (conflict (resolveConfig (Some config)) (AcquireCtx r)) eqn:Hc.
  - rewrite (middleware_conflict _ _ _ Hc). split; reflexivity.
  - rewrite (middleware_pass _ _ _ Hc). unfold echo, LocalsGet, Locals.
    cbn [locals]. rewrite lookup_insert_eq. split; reflexivity.
Qed.

(** ** Further properties at the requests of the test suite *)

(** Default names next to the custom settings. *)
Lemma other_names_ignored_witness :
  extract customSettings
    (mkCtx (withHeader "X-Token" "Bearer z"
              (withForm "access_token" "y"
                 (withQuery "access_token" "x" (thirdRequest "custom_token"))))
       ∅ 200 "")
  = extract customSettings (mkCtx (thirdRequest "custom_token") ∅ 200 "").
Proof.
  apply (other_names_ignored customSettings (thirdRequest "custom_token")
           ∅ 200 "" "access_token" "x" "access_token" "y" "X-Token" "Bearer z").
  - vm_compute. discriminate.
  - vm_compute. discriminate.
  - vm_compute. discriminate.
Defined.

(** The scheme "Token v2" and a header that carries it. *)
Lemma spaced_scheme_never_matches_witness :
  supplied (resolveConfig (Some spacedSettings))
    (AcquireCtx spacedSchemeRequest) FromHeader = None.
Proof.
  refine (proj1 (spaced_scheme_never_matches
                   (resolveConfig (Some spacedSettings))
                   (AcquireCtx spacedSchemeRequest) _)).
  vm_compute. reflexivity.
Defined.

(** [Authorization:  Bearer abc] as a stored value with a leading space. *)
Lemma leading_space_ignored_witness :
  supplied (resolveConfig None)
    (AcquireCtx (withHeader "Authorization" " Bearer abc" emptyRequest))
    FromHeader = None.
Proof.
  refine (proj1 (proj2 (leading_space_ignored None
                          (AcquireCtx (withHeader "Authorization" " Bearer abc"
                                         emptyRequest))
                          "Bearer abc" _))).
  vm_compute. reflexivity.
Defined.

(** The call of the handler on a credential with spaces of its own. *)
Lemma SplitN_rejoin_witness :
  String.concat " " (SplitN "Bearer a b" " " 2) = "Bearer a b".
Proof.
  refine (proj1 (SplitN_rejoin "Bearer a b" 2 _)).
  discriminate.
Defined.

(** Header first on the fifth request of the test. *)
Lemma conflict_order_independent_witness :
  snd (extractIn [FromHeader; FromQuery; FromBody] (resolveConfig None)
         (AcquireCtx (fifthRequest "access_token" "Bearer")))
  = conflict (resolveConfig None)
      (AcquireCtx (fifthRequest "access_token" "Bearer")).
Proof.
  apply (conflict_order_independent (resolveConfig None)
           (AcquireCtx (fifthRequest "access_token" "Bearer"))
           [FromHeader; FromQuery; FromBody]).
  - exact (perm_trans (perm_skip FromQuery (perm_swap FromHeader FromBody []))
             (perm_swap FromHeader FromQuery [FromBody])).
  - intros v. vm_compute. intros [= <-]. discriminate.
Defined.
